(** * ReduxActions: the request / response / error action helper

    A shallow embedding of [library/src/scripts/state/ReduxActions.ts]:
    the static action builders ([createAction], [generateApiActionCreators]
    and the three private [createApi...Action] functions) and the
    asynchronous method [dispatchApi], followed by the properties that the
    specification states about them.

    How the JavaScript is read.
    - A JavaScript value is a [value].  An object is the record of its own
      enumerable data properties ([gmap string value]); the source never
      assigns to a property, so one property map per object is enough and
      "the same object" is "the same value".
    - An optional parameter is an [option value]: [None] is an omitted
      argument, and an omitted argument reads as [VUndefined].
    - [dispatchApi] runs against three collaborators: [this.dispatch],
      the HTTP client [this.api] and the settlement of the promise the
      client returns.  They are arbitrary functions of a world state [W];
      every interaction with them, and every call of [logError], is
      recorded, in order, in the trace of the run.
    - A computation ends normally, throws, or never completes
      ([outcome]).  For an [async] function such as [dispatchApi] these are
      its promise being fulfilled, rejected, or left pending; for a call of
      a collaborator, the call returning, throwing, or not coming back.

    The constructor, [bindDispatch] and [getState] take no part in the
    statements and are left out. *)

From stdpp Require Import base option list gmap strings pretty.

Set Warnings "-register-all".

(** ** Values *)

Inductive value : Type :=
  | VUndefined
  | VNull
  | VBool (b : bool)
  | VNum (n : Z)                      (* an integer-valued number *)
  | VStr (s : string)
  | VPromise (p : positive)           (* a promise, named by a handle *)
  | VObj (props : gmap string value). (* own enumerable data properties *)

Abbreviation action := (gmap string value).

(** ToBoolean: what [v ? a : b] tests. *)
Definition truthy (v : value) : bool :=
  match v with
  | VUndefined | VNull => false
  | VBool b => b
  | VNum n => negb (n =? 0)%Z
  | VStr s => negb (String.eqb s "")
  | VPromise _ | VObj _ => true
  end.

Definition nullish (v : value) : bool :=
  match v with
  | VUndefined | VNull => true
  | _ => false
  end.

(** The indexed characters of a string, the own enumerable properties of
    its wrapper object. *)
Definition string_props (s : string) : gmap string value :=
  list_to_map
    (imap (λ i c, (pretty i, VStr (String c EmptyString)))
          (String.list_ascii_of_string s)).

(** What [...v] contributes to an object literal. *)
Definition own_enumerable (v : value) : gmap string value :=
  match v with
  | VObj props => props
  | VStr s => string_props s
  | _ => ∅
  end.

(** [{...v1, ..., ...vn}]: sources are copied left to right, a later
    source overwrites the keys of the earlier ones. *)
Definition object_spread (sources : list value) : gmap string value :=
  foldl (λ acc v, own_enumerable v ∪ acc) ∅ sources.

(** The value of an argument, omitted or not. *)
Definition arg (a : option value) : value := default VUndefined a.

(** A parameter with a default, [x = d]: the default is used when the
    argument is omitted or [undefined]. *)
Definition default_arg (a : option value) (d : value) : value :=
  match arg a with
  | VUndefined => d
  | v => v
  end.

(** ** Outcomes *)

Inductive outcome (A : Type) : Type :=
  | Normal (a : A)
  | Thrown (e : value)
  | Pending.
Arguments Normal {A} a.
Arguments Thrown {A} e.
Arguments Pending {A}.

Definition is_normal {A} (o : outcome A) : bool :=
  match o with Normal _ => true | _ => false end.

(** The error of reading a property of [undefined] or [null]. *)
Definition TypeError : value := VObj {[ "name" := VStr "TypeError" ]}.

(** [v.k] and [v[k]].  Prototype chains are not modelled: a primitive has
    its own properties only. *)
Definition get_prop (v : value) (k : string) : outcome value :=
  match v with
  | VUndefined | VNull => Thrown TypeError
  | VObj props => Normal (default VUndefined (props !! k))
  | VStr s =>
      Normal (default VUndefined
                (<["length" := VNum (Z.of_nat (String.length s))]> (string_props s) !! k))
  | VBool _ | VNum _ | VPromise _ => Normal VUndefined
  end.

(** ** createAction *)

Module ReduxActions.

(** [payload === undefined ? { type } : { type, payload }] *)
Definition createAction (type : string) (payload : option value) : action :=
  match arg payload with
  | VUndefined => {[ "type" := VStr type ]}
  | p => {[ "type" := VStr type; "payload" := p ]}
  end.

(** ** The request methods *)

(** ["get" | "post" | "put" | "delete" | "patch"] *)
Inductive RequestType : Type := Get | Post | Put | Delete | Patch.

#[global] Instance RequestType_eq_dec : EqDecision RequestType.
Proof. solve_decision. Defined.

(** ** Traces *)

Inductive event : Type :=
  | EvDispatch (a : action) (r : outcome value)
      (* this.dispatch(a), and how the call came back *)
  | EvApi (m : RequestType) (endpoint : string) (a : value) (r : outcome value)
      (* this.api[m](endpoint, a), and how the call came back *)
  | EvAwait (v : value) (r : outcome value)
      (* await v, and how it resumed *)
  | EvLogError (v : value).
      (* logError(v) *)

Definition dispatched (evs : list event) : list action :=
  omap (λ ev, match ev with EvDispatch a _ => Some a | _ => None end) evs.

Definition dispatch_outcomes (evs : list event) : list (outcome value) :=
  omap (λ ev, match ev with EvDispatch _ r => Some r | _ => None end) evs.

Definition api_calls (evs : list event) : list (RequestType * string * value) :=
  omap (λ ev, match ev with EvApi m ep a _ => Some (m, ep, a) | _ => None end) evs.

Definition awaited (evs : list event) : list (outcome value) :=
  omap (λ ev, match ev with EvAwait _ r => Some r | _ => None end) evs.

Definition logged (evs : list event) : list value :=
  omap (λ ev, match ev with EvLogError v => Some v | _ => None end) evs.

(** Every call of [this.dispatch] in the trace returned. *)
Definition dispatch_returns (evs : list event) : bool :=
  forallb is_normal (dispatch_outcomes evs).

(** ** The collaborators and the monad of runs *)

Section Runs.

Context {W : Type}.

Record collaborators : Type := Collaborators {
  dispatch_fn : action → W → outcome value * W;
  api_fn : RequestType → string → value → W → outcome value * W;
  settle_fn : positive → W → outcome value * W;
}.

Record run (A : Type) : Type := Run {
  result : outcome A;
  world : W;
  trace : list event;
}.
Arguments Run {A} result world trace.
Arguments result {A} r.
Arguments world {A} r.
Arguments trace {A} r.

Definition M (A : Type) : Type := W → run A.

Definition ret {A} (a : A) : M A := λ w, Run (Normal a) w [].

Definition lift {A} (o : outcome A) : M A := λ w, Run o w [].

Definition bind {A B} (m : M A) (f : A → M B) : M B := λ w,
  match m w with
  | Run (Normal a) w1 t1 =>
      match f a w1 with
      | Run o w2 t2 => Run o w2 (t1 ++ t2)
      end
  | Run (Thrown e) w1 t1 => Run (Thrown e) w1 t1
  | Run Pending w1 t1 => Run Pending w1 t1
  end.

(** [try { m } catch (e) { h e }] *)
Definition try_catch {A} (m : M A) (h : value → M A) : M A := λ w,
  match m w with
  | Run (Thrown e) w1 t1 =>
      match h e w1 with
      | Run o w2 t2 => Run o w2 (t1 ++ t2)
      end
  | r => r
  end.

Definition external (f : W → outcome value * W) (ev : outcome value → event)
  : M value := λ w,
  let '(o, w') := f w in Run o w' [ev o].

End Runs.

Arguments collaborators W : clear implicits.
Arguments run W A : clear implicits.
Arguments M W A : clear implicits.
Arguments Run {W A} result world trace.
Arguments result {W A} r.
Arguments world {W A} r.
Arguments trace {W A} r.

#[global] Instance M_ret {W} : MRet (M W) := λ A a, ret a.
#[global] Instance M_bind {W} : MBind (M W) := λ A B f m, bind m f.

Section Actions.

Context {W : Type} (E : collaborators W).

(** Modelled from the spec: [logError], of [@library/utility], is imported
    from a module that is not among the sources; the spec describes it as
    an error-logging side effect consumed by a logging collaborator.  A
    call [logError(v)] is the trace event [EvLogError v], and it returns. *)
Definition logError (v : value) : M W unit :=
  λ w, Run (Normal tt) w [EvLogError v].

Definition dispatch (a : action) : M W value :=
  external (dispatch_fn E a) (EvDispatch a).

Definition api (m : RequestType) (endpoint : string) (a : value) : M W value :=
  external (api_fn E m endpoint a) (EvApi m endpoint a).

(** [await v]: a promise settles as the collaborator decides, any other
    value is the result at once. *)
Definition await (v : value) : M W value :=
  match v with
  | VPromise p => external (settle_fn E p) (EvAwait v)
  | _ => λ w, Run (Normal v) w [EvAwait v (Normal v)]
  end.

(** ** The action creators *)

Definition createApiRequestAction (type : string) (meta : value) : action :=
  {[ "type" := VStr type; "meta" := meta ]}.

Definition createApiErrorAction (type : string) (meta error : value)
  : M W action :=
  logError error ;;
  ret ({[ "type" := VStr type; "meta" := meta; "payload" := error ]} : action).

Definition createApiResponseAction (type : string) (meta payload : value)
  : action :=
  {[ "type" := VStr type; "meta" := meta; "payload" := payload ]}.

Record ActionCreators : Type := {
  request : value → M W action;
  response : value → value → M W action;
  error : value → value → M W action;
}.

Definition generateApiActionCreators (requestType responseType errorType : string)
  : ActionCreators :=
  {| request := λ meta, ret (createApiRequestAction requestType meta);
     response := λ response meta,
       ret (createApiResponseAction responseType meta response);
     error := λ error meta, createApiErrorAction errorType meta error |}.

(** ** dispatchApi *)

Definition dispatchApi (requestType : RequestType) (endpoint : string)
    (actionCreators : ActionCreators) (params : value) (meta : option value)
  : M W value :=
  let meta := default_arg meta (VObj ∅) in
  let meta := VObj (object_spread [params; meta]) in
  a ← actionCreators.(request) meta;
  dispatch a ;;
  try_catch
    (requestPromise ←
       (if decide (requestType = Get)
        then api Get endpoint (VObj {[ "params" := params ]})
        else api requestType endpoint params);
     response_ ← await requestPromise;
     a ← actionCreators.(response) response_ meta;
     dispatch a ;;
     ret response_)
    (λ axiosError,
       c ← lift (get_prop axiosError "response");
       error_ ←
         (if truthy c
          then r ← lift (get_prop axiosError "response");
               lift (get_prop r "data")
          else ret axiosError);
       a ← actionCreators.(error) error_ meta;
       dispatch a ;;
       ret VUndefined).

End Actions.


(** ** Vocabulary of the statements *)

(** Reading [v.k] where this cannot fail: a property that is missing, and
    any property of [undefined] and [null], reads as [undefined]. *)
Definition field (v : value) (k : string) : value :=
  match get_prop v k with
  | Normal x => x
  | _ => VUndefined
  end.

(** The error that the specification forwards: the body of the response
    that the caught error carries, or else the caught error itself. *)
Definition error_payload (e : value) : value :=
  if truthy (field e "response") then field (field e "response") "data" else e.

(** [{...params, ...meta}], with [meta = {}] by default. *)
Definition merged_meta (params : value) (meta : option value) : value :=
  VObj (object_spread [params; default_arg meta (VObj ∅)]).

(** The second argument of the call of the client's method. *)
Definition api_argument (requestType : RequestType) (params : value) : value :=
  if decide (requestType = Get) then VObj {[ "params" := params ]} else params.

Definition errorAction (type : string) (meta error : value) : action :=
  {[ "type" := VStr type; "meta" := meta; "payload" := error ]}.

(** The outcome of a function whose last statement has outcome [o] and
    which then returns [v]. *)
Definition returning {A B} (v : B) (o : outcome A) : outcome B :=
  match o with
  | Normal _ => Normal v
  | Thrown e => Thrown e
  | Pending => Pending
  end.

(** The values with which the HTTP call failed: thrown by the client's
    method, or the reason for which its promise was rejected. *)
Definition http_failures (evs : list event) : list value :=
  omap (λ ev, match ev with
              | EvApi _ _ _ (Thrown e) | EvAwait _ (Thrown e) => Some e
              | _ => None
              end) evs.

Definition thrown_by (ev : event) : option value :=
  match ev with
  | EvDispatch _ (Thrown e) | EvApi _ _ _ (Thrown e) | EvAwait _ (Thrown e) => Some e
  | _ => None
  end.

(** The exception that left the [try] block.  The first event of a run is
    the dispatch of the request action, which precedes the [try]; the
    first exception after it is thrown inside the block. *)
Definition try_block_exception (evs : list event) : option value :=
  head (omap thrown_by (tail evs)).

Definition not_nullish (v : value) : bool := negb (nullish v).

(** ** The paths of a run of dispatchApi

    Every run of [dispatchApi] on a generated triple follows one of five
    paths, told apart by how the collaborators answer. *)

Section PathShapes.

Context {W : Type}.
Context (requestType : RequestType) (endpoint : string).
Context (rq rs er : string) (params : value) (meta : option value).

Let m := merged_meta params meta.
Let a := api_argument requestType params.

(** The ways in which the [try] block does not reach its [return]. *)
Variant try_stops : list event → outcome value → Prop :=
  | stops_at_call o :
      is_normal o = false →
      try_stops [EvApi requestType endpoint a o] o
  | stops_at_await p o :
      is_normal o = false →
      try_stops [EvApi requestType endpoint a (Normal p); EvAwait p o] o
  | stops_at_dispatch p resp o :
      is_normal o = false →
      try_stops [EvApi requestType endpoint a (Normal p); EvAwait p (Normal resp);
                 EvDispatch (createApiResponseAction rs m resp) o] o.

Variant dispatchApi_path : run W value → Prop :=
  | path_request_dispatch_stops o w' :
      is_normal o = false →
      dispatchApi_path
        (Run (returning VUndefined o) w' [EvDispatch (createApiRequestAction rq m) o])
  | path_response v p resp v' w' :
      dispatchApi_path
        (Run (Normal resp) w'
           [EvDispatch (createApiRequestAction rq m) (Normal v);
            EvApi requestType endpoint a (Normal p);
            EvAwait p (Normal resp);
            EvDispatch (createApiResponseAction rs m resp) (Normal v')])
  | path_pending v evs w' :
      try_stops evs Pending →
      dispatchApi_path
        (Run Pending w' (EvDispatch (createApiRequestAction rq m) (Normal v) :: evs))
  | path_error v evs e o w' :
      try_stops evs (Thrown e) →
      nullish e = false →
      dispatchApi_path
        (Run (returning VUndefined o) w'
           (EvDispatch (createApiRequestAction rq m) (Normal v) :: evs ++
            [EvLogError (error_payload e);
             EvDispatch (errorAction er m (error_payload e)) o]))
  | path_catch_throws v evs e w' :
      try_stops evs (Thrown e) →
      nullish e = true →
      dispatchApi_path
        (Run (Thrown TypeError) w'
           (EvDispatch (createApiRequestAction rq m) (Normal v) :: evs)).

End PathShapes.

Arguments stops_at_call {requestType endpoint rs params meta} o _.
Arguments stops_at_await {requestType endpoint rs params meta} p o _.
Arguments stops_at_dispatch {requestType endpoint rs params meta} p resp o _.
Arguments path_request_dispatch_stops
  {W requestType endpoint rq rs er params meta} o w' _.
Arguments path_response {W requestType endpoint rq rs er params meta} v p resp v' w'.
Arguments path_pending {W requestType endpoint rq rs er params meta} v evs w' _.
Arguments path_error {W requestType endpoint rq rs er params meta} v evs e o w' _ _.
Arguments path_catch_throws
  {W requestType endpoint rq rs er params meta} v evs e w' _ _.

(** ** Statements of the specification, as it words them

    Each reads the specification's sentence on one run; none holds of
    every run, and the theorems below prove them under the conditions that
    the code needs. *)

Section AsStated.

Context {W : Type} (E : collaborators W).
Context (requestType : RequestType) (endpoint : string).
Context (rq rs er : string) (params : value) (meta : option value) (w : W).

Let r :=
  dispatchApi E requestType endpoint (generateApiActionCreators rq rs er) params meta w.
Let m := merged_meta params meta.

(** "For all successful calls, exactly one request action and one response
    action are dispatched, in that order", and the response is returned. *)
Definition success_as_stated : Prop :=
  ∀ resp, awaited (trace r) = [Normal resp] →
    dispatched (trace r)
      = [createApiRequestAction rq m; createApiResponseAction rs m resp]
    ∧ result r = Normal resp.

(** "For all failing calls, exactly one request action and one error action
    are dispatched, in that order." *)
Definition failure_as_stated : Prop :=
  ∀ e, awaited (trace r) = [Thrown e] →
    ∃ payload,
      dispatched (trace r)
        = [createApiRequestAction rq m; errorAction er m payload].


(** "Both are logged, then forwarded as the payload of the error action." *)
Definition error_payload_as_stated : Prop :=
  ∀ e, awaited (trace r) = [Thrown e] →
    logged (trace r) = [error_payload e]
    ∧ last (dispatched (trace r)) = Some (errorAction er m (error_payload e)).

(** Whatever is thrown inside the [try] block ends as a dispatched error
    action. *)
Definition catch_as_stated : Prop :=
  ∀ e, try_block_exception (trace r) = Some e →
    ∃ payload, last (dispatched (trace r)) = Some (errorAction er m payload).

End AsStated.

(** ** Collaborators for the examples *)

Definition type_is (t : string) (a : action) : bool :=
  match a !! "type" with
  | Some (VStr s) => String.eqb s t
  | _ => false
  end.

(** A dispatch function that returns, whatever the action. *)
Definition accepting : action → outcome value := λ _, Normal VUndefined.

(** A dispatch function that throws [e] on the actions of type [t]. *)
Definition throwing_on (t : string) (e : value) : action → outcome value :=
  λ a, if type_is t a then Thrown e else Normal VUndefined.

(** A client that returns the promise [VPromise 1], which settles as [s],
    and a dispatch function [d]; there is no state. *)
Definition mock (d : action → outcome value) (s : outcome value)
  : collaborators unit :=
  {| dispatch_fn := λ a w, (d a, w);
     api_fn := λ _ _ _ w, (Normal (VPromise 1), w);
     settle_fn := λ _ w, (s, w) |}.

Definition page2 : value := VObj {[ "page" := VNum 2 ]}.

Definition things : value :=
  VObj {[ "data" := VStr "things"; "status" := VNum 200 ]}.

Definition bad : value :=
  VObj {[ "response" := VObj {[ "data" := VObj {[ "message" := VStr "bad" ]} ]} ]}.

Definition offline : value := VObj {[ "message" := VStr "Network Error" ]}.

Definition REQUEST : string := "GET_THING_REQUEST".
Definition RESPONSE : string := "GET_THING_RESPONSE".
Definition ERROR : string := "GET_THING_ERROR".

Definition triple : ActionCreators (W := unit) :=
  generateApiActionCreators REQUEST RESPONSE ERROR.

(** ** bindDispatch *)

Section Binding.

Context {W : Type} (E : collaborators W).


End Binding.

(** A client whose method throws [e] instead of returning a promise. *)
Definition broken_client (d : action → outcome value) (e : value)
  : collaborators unit :=
  {| dispatch_fn := λ a w, (d a, w);
     api_fn := λ _ _ _ w, (Thrown e, w);
     settle_fn := λ _ w, (Pending, w) |}.

(** An error that carries a response without a body. *)
Definition no_body : value :=
  VObj {[ "response" := VObj {[ "status" := VNum 500 ]} ]}.

(** ** Elementary facts *)

Lemma get_prop_nullish v k : nullish v = true → get_prop v k = Thrown TypeError.
Proof. by destruct v. Qed.

Lemma get_prop_field v k : nullish v = false → get_prop v k = Normal (field v k).
Proof. unfold field. by destruct v. Qed.

Lemma truthy_not_nullish v : truthy v = true → nullish v = false.
Proof. by destruct v. Qed.

Section RunFacts.

Context {W : Type} (E : collaborators W).

Lemma dispatch_run a w :
  ∃ o w', dispatch E a w = Run o w' [EvDispatch a o].
Proof.
  unfold dispatch, external. destruct (dispatch_fn E a w) as [o w']. eauto.
Qed.

Lemma api_run m ep a w :
  ∃ o w', api E m ep a w = Run o w' [EvApi m ep a o].
Proof.
  unfold api, external. destruct (api_fn E m ep a w) as [o w']. eauto.
Qed.

Lemma await_run v w :
  ∃ o w', await E v w = Run o w' [EvAwait v o].
Proof.
  destruct v; try (by eexists _, _).
  unfold await, external. destruct (settle_fn E p w) as [o w']. eauto.
Qed.

Lemma api_call_by_method requestType endpoint params :
  (if decide (requestType = Get)
   then api E Get endpoint (VObj {[ "params" := params ]})
   else api E requestType endpoint params)
  = api E requestType endpoint (api_argument requestType params).
Proof. unfold api_argument. by case_decide; subst. Qed.

End RunFacts.


(** ** Every run follows a path *)

Section Paths.

Context {W : Type} (E : collaborators W).
Context (requestType : RequestType) (endpoint : string).
Context (rq rs er : string) (params : value) (meta : option value).

Let m := merged_meta params meta.
Let a := api_argument requestType params.

#[local] Abbreviation try_stops :=
  (try_stops requestType endpoint rs params meta).
#[local] Abbreviation dispatchApi_path :=
  (dispatchApi_path (W := W) requestType endpoint rq rs er params meta).

Ltac unfold_run :=
  cbv beta iota zeta delta
    [request response error bind try_catch ret lift mbind M_bind mret M_ret
     createApiErrorAction logError].

Ltac call :=
  match goal with
  | |- context [dispatch E ?x ?w] =>
      destruct (dispatch_run E x w) as (?o & ?w' & ->)
  | |- context [api E ?r ?ep ?x ?w] =>
      destruct (api_run E r ep x w) as (?o & ?w' & ->)
  | |- context [await E ?x ?w] =>
      destruct (await_run E x w) as (?o & ?w' & ->)
  end; unfold_run.

Lemma error_payload_response e :
  truthy (field e "response") = true →
  error_payload e = field (field e "response") "data".
Proof. intros Ht. unfold error_payload. by rewrite Ht. Qed.

Lemma error_payload_raw e :
  truthy (field e "response") = false → error_payload e = e.
Proof. intros Ht. unfold error_payload. by rewrite Ht. Qed.

(** The [catch] clause, entered with [e] after the events [evs] of the
    [try] block; [stop] proves where the block stopped. *)
Ltac catch_clause v evs e stop :=
  assert (try_stops evs (Thrown e)) as Hstop by (by stop);
  destruct (nullish e) eqn:Hnull;
  [ rewrite (get_prop_nullish e) by done;
    exact (path_catch_throws v evs e _ Hstop Hnull)
  | rewrite !(get_prop_field e) by done;
    destruct (truthy (field e "response")) eqn:Ht;
    [ rewrite (get_prop_field (field e "response"))
        by (by apply truthy_not_nullish);
      apply error_payload_response in Ht
    | apply error_payload_raw in Ht ];
    unfold_run; call;
    match goal with
    | |- context [match ?o with _ => _ end] =>
        pose proof (λ w' : W, path_error (rq := rq) (er := er) v evs e o w' Hstop Hnull)
          as Hpath;
        rewrite Ht in Hpath;
        destruct o; apply Hpath
    end ].

Lemma dispatchApi_paths w :
  dispatchApi_path
    (dispatchApi E requestType endpoint (generateApiActionCreators rq rs er) params meta w).
Proof.
  unfold dispatchApi, generateApiActionCreators.
  rewrite api_call_by_method.
  unfold_run.
  call. destruct o as [v|e|].
  2: { by apply (path_request_dispatch_stops (Thrown e)). }
  2: { by apply (path_request_dispatch_stops Pending). }
  call. destruct o as [p|e|].
  2: { catch_clause v [EvApi requestType endpoint a (Thrown e)] e
         ltac:(apply stops_at_call). }
  2: { by apply path_pending, stops_at_call. }
  call. destruct o as [resp|e|].
  2: { catch_clause v [EvApi requestType endpoint a (Normal p); EvAwait p (Thrown e)] e
         ltac:(apply stops_at_await). }
  2: { by apply path_pending, stops_at_await. }
  call. destruct o as [v'|e|].
  - apply path_response.
  - catch_clause v
      [EvApi requestType endpoint a (Normal p); EvAwait p (Normal resp);
       EvDispatch (createApiResponseAction rs m resp) (Thrown e)] e
      ltac:(apply stops_at_dispatch).
  - by apply path_pending, stops_at_dispatch.
Qed.

End Paths.

(** ** The actions *)

Lemma request_action_meta type meta :
  createApiRequestAction type meta !! "meta" = Some meta.
Proof.
  unfold createApiRequestAction.
  by rewrite lookup_insert_ne, lookup_singleton_eq.
Qed.

Lemma response_action_meta type meta payload :
  createApiResponseAction type meta payload !! "meta" = Some meta.
Proof.
  unfold createApiResponseAction.
  by rewrite lookup_insert_ne, lookup_insert_eq.
Qed.

Lemma error_action_meta type meta payload :
  errorAction type meta payload !! "meta" = Some meta.
Proof.
  unfold errorAction.
  by rewrite lookup_insert_ne, lookup_insert_eq.
Qed.

Lemma error_action_payload type meta payload :
  errorAction type meta payload !! "payload" = Some payload.
Proof.
  unfold errorAction.
  by rewrite !lookup_insert_ne, lookup_singleton_eq.
Qed.

(** The default [{}] of [meta] contributes what an omitted [meta] does:
    nothing. *)
Lemma own_enumerable_default_arg meta :
  own_enumerable (default_arg meta (VObj ∅)) = own_enumerable (arg meta).
Proof. unfold default_arg. by destruct (arg meta). Qed.

Lemma merged_meta_union params meta :
  merged_meta params meta
  = VObj (own_enumerable (arg meta) ∪ own_enumerable params).
Proof.
  unfold merged_meta, object_spread. cbn [foldl].
  by rewrite own_enumerable_default_arg, (right_id_L ∅ (∪)).
Qed.

(** ** createAction *)

(** C6 (as amended).  For every [type], [createAction(type)] is exactly
    [{type}] and has no [payload] key; for every [type] and every payload
    [p], reading the [payload] field of [createAction(type, p)] gives [p];
    and for every [p] other than [undefined], [createAction(type, p)] is
    exactly [{type, payload: p}].  [createAction] is a function of its
    arguments alone and accepts every argument. *)
Theorem createAction_shape (type : string) :
  createAction type None = {[ "type" := VStr type ]}
  ∧ createAction type None !! "payload" = None
  ∧ (∀ p, field (VObj (createAction type (Some p))) "payload" = p)
  ∧ (∀ p, p ≠ VUndefined →
       createAction type (Some p) = {[ "type" := VStr type; "payload" := p ]}).
Proof.
  split_and!; [done | by apply lookup_singleton_ne | | ].
  - intros p. unfold field, get_prop, createAction, arg. cbn [default from_option id].
    destruct p; rewrite ?lookup_insert_ne, ?lookup_singleton_eq by done;
      done.
  - intros p Hp. unfold createAction, arg. cbn [default from_option id].
    by destruct p.
Qed.

(** C9.  For every [type], [createAction(type, undefined)] is [{type}],
    without a [payload] key, the very object that [createAction(type)]
    builds: an explicit [undefined] payload cannot be told from an omitted
    one. *)
Theorem createAction_explicit_undefined (type : string) :
  createAction type (Some VUndefined) = {[ "type" := VStr type ]}
  ∧ createAction type (Some VUndefined) !! "payload" = None
  ∧ createAction type (Some VUndefined) = createAction type None.
Proof. split_and!; [done | by apply lookup_singleton_ne | done]. Qed.

(** ** generateApiActionCreators *)

(** C7.  For all strings [requestType], [responseType] and [errorType],
    the three functions of the generated triple are: [request(meta)], which
    returns [{type: requestType, meta}]; [response(payload, meta)], which
    returns [{type: responseType, meta, payload}]; and [error(error, meta)],
    which returns [{type: errorType, meta, payload: error}] and logs the
    error.  The first two do nothing else, the third nothing but the call
    of [logError]. *)
Theorem generateApiActionCreators_creators {W : Type}
    (requestType responseType errorType : string) (meta payload err : value)
    (w : W) :
  let creators := generateApiActionCreators requestType responseType errorType in
  request creators meta w
    = Run (Normal ({[ "type" := VStr requestType; "meta" := meta ]} : action)) w []
  ∧ response creators payload meta w
    = Run (Normal ({[ "type" := VStr responseType; "meta" := meta;
                      "payload" := payload ]} : action)) w []
  ∧ error creators err meta w
    = Run (Normal ({[ "type" := VStr errorType; "meta" := meta;
                      "payload" := err ]} : action)) w [EvLogError err].
Proof. done. Qed.

(** ** dispatchApi *)

Section Properties.

Context {W : Type} (E : collaborators W).
Context (requestType : RequestType) (endpoint : string).
Context (rq rs er : string) (params : value) (meta : option value) (w : W).

#[local] Abbreviation the_run :=
  (dispatchApi E requestType endpoint (generateApiActionCreators rq rs er)
     params meta w).
#[local] Abbreviation m := (merged_meta params meta).

Ltac observe :=
  cbn [trace result awaited dispatched dispatch_outcomes dispatch_returns logged
       api_calls http_failures try_block_exception thrown_by
       omap list_omap app forallb is_normal andb negb returning head tail
       not_nullish last].

(** Reasoning by cases on the path of the run. *)
Ltac by_paths :=
  generalize (dispatchApi_paths E requestType endpoint rq rs er params meta w);
  generalize the_run;
  intros ? [o w' Ho | v p resp' v' w' | v evs w' Hstop
            | v evs e' o w' Hstop He | v evs e' w' Hstop He];
  try (inversion Hstop; subst; clear Hstop);
  observe.

(** C1 (as amended).  For every call on which the HTTP client's promise is
    fulfilled and every call of [dispatch] returns, exactly two actions are
    dispatched, the request action and then the response action, both
    carrying the same merged meta object, and [dispatchApi] returns the
    HTTP response it received. *)
Theorem dispatchApi_success resp :
  awaited (trace the_run) = [Normal resp] →
  dispatch_returns (trace the_run) = true →
  dispatched (trace the_run)
    = [createApiRequestAction rq m; createApiResponseAction rs m resp]
  ∧ createApiRequestAction rq m !! "meta" = Some m
  ∧ createApiResponseAction rs m resp !! "meta" = Some m
  ∧ result the_run = Normal resp.
Proof.
  by_paths; intros Hawait Hdispatch; simplify_eq.
  eauto using request_action_meta, response_action_meta.
Qed.

(** C2 (as amended).  For every call on which the HTTP client's promise is
    rejected with a reason other than [null] and [undefined], exactly two
    actions are dispatched: the request action and then the error action.
    No response action is dispatched and nothing follows the error
    action. *)
Theorem dispatchApi_failure e :
  awaited (trace the_run) = [Thrown e] →
  nullish e = false →
  dispatched (trace the_run)
    = [createApiRequestAction rq m; errorAction er m (error_payload e)].
Proof.
  by_paths; intros Hawait Hnull; simplify_eq; first [done | congruence].
Qed.


(** C4 (as amended).  For every call on which the HTTP client's promise is
    rejected with a reason [e] other than [null] and [undefined], the
    payload of the dispatched error action is the body of the response
    that [e] carries ([e.response.data]) when [e] carries a response, and
    [e] itself when it does not; and this payload is logged, once, just
    before the error action is dispatched. *)
Theorem dispatchApi_error_payload e :
  awaited (trace the_run) = [Thrown e] →
  nullish e = false →
  ∃ payload,
    (if truthy (field e "response")
     then payload = field (field e "response") "data"
     else payload = e)
    ∧ logged (trace the_run) = [payload]
    ∧ errorAction er m payload !! "payload" = Some payload
    ∧ ∃ before o,
        trace the_run
        = before ++ [EvLogError payload; EvDispatch (errorAction er m payload) o].
Proof.
  intros Hawait Hnull. exists (error_payload e). split.
  { unfold error_payload. by destruct (truthy (field e "response")). }
  revert Hawait Hnull.
  by_paths; intros Hawait Hnull; simplify_eq; try congruence.
  split_and!; [done | apply error_action_payload | ].
  by eexists [_; _; _], _.
Qed.


(** C8.  On every call, every dispatched action carries the merged meta,
    and at least one action is dispatched.  The merged meta is the params
    overlaid by the meta of the caller: on a key of the caller's meta it
    has the value of the caller's meta, whether or not the params have the
    key, and on any other key it has what the params have. *)
Theorem dispatchApi_meta_overlay :
  ∃ props,
    m = VObj props
    ∧ dispatched (trace the_run) ≠ []
    ∧ Forall (λ a : action, a !! "meta" = Some (VObj props))
             (dispatched (trace the_run))
    ∧ (∀ k v, own_enumerable (arg meta) !! k = Some v → props !! k = Some v)
    ∧ (∀ k, own_enumerable (arg meta) !! k = None →
         props !! k = own_enumerable params !! k).
Proof.
  exists (own_enumerable (arg meta) ∪ own_enumerable params).
  split_and!.
  - apply merged_meta_union.
  - by by_paths.
  - rewrite <- merged_meta_union.
    by_paths;
      repeat (apply Forall_cons; split);
      auto using request_action_meta, response_action_meta, error_action_meta.
  - intros k v Hk. by apply lookup_union_Some_l.
  - intros k Hk. by apply lookup_union_r.
Qed.

(** C10 (as amended).  Every exception other than [null] and [undefined]
    that is thrown inside the [try] block, by the call of the client's
    method, by the awaited promise or by the dispatch of the response
    action, is caught by the one [catch] clause: its payload is logged
    and the error action carrying that payload is dispatched.  This
    happens also after a fulfilled HTTP call, when it is the dispatch of
    the response action that throws: then three actions are dispatched,
    request, response and error. *)
Theorem dispatchApi_catch_covers_try_block e :
  try_block_exception (trace the_run) = Some e →
  nullish e = false →
  (∃ before o,
     trace the_run
     = before ++ [EvLogError (error_payload e);
                  EvDispatch (errorAction er m (error_payload e)) o])
  ∧ (∀ resp, awaited (trace the_run) = [Normal resp] →
       dispatched (trace the_run)
       = [createApiRequestAction rq m; createApiResponseAction rs m resp;
          errorAction er m (error_payload e)]).
Proof.
  by_paths; intros Hthrown Hnull; simplify_eq; try congruence.
  - split; [by eexists [_; _], _ | done].
  - split; [by eexists [_; _; _], _ | done].
  - split; [by eexists [_; _; _; _], _ | by intros ? [= ->]].
Qed.

End Properties.

(** ** The statements on the scenarios of the specification *)

Ltac run_it := vm_compute; reflexivity.

Lemma createAction_shape_witness :
  createAction "A" (Some (VNum 1)) = {[ "type" := VStr "A"; "payload" := VNum 1 ]}.
Proof.
  destruct (createAction_shape "A") as (_ & _ & _ & Hshape).
  apply Hshape. discriminate.
Defined.

(** [createAction("A", undefined)] is not [{type: "A", payload: undefined}]:
    it has no [payload] key. *)
Lemma createAction_undefined_payload :
  createAction "A" (Some VUndefined)
  ≠ {[ "type" := VStr "A"; "payload" := VUndefined ]}.
Proof.
  intros Heq.
  apply (f_equal (λ a : action, a !! "payload")) in Heq.
  vm_compute in Heq. discriminate Heq.
Qed.

(** The first scenario: [dispatchApi("get", "/things", triple, {page: 2})]
    against a client that fulfils. *)
Lemma dispatchApi_success_witness :
  dispatched (trace (dispatchApi (mock accepting (Normal things)) Get "/things"
                       triple page2 None tt))
    = [createApiRequestAction REQUEST page2;
       createApiResponseAction RESPONSE page2 things]
  ∧ result (dispatchApi (mock accepting (Normal things)) Get "/things"
              triple page2 None tt)
    = Normal things.
Proof.
  destruct (dispatchApi_success (mock accepting (Normal things)) Get "/things"
              REQUEST RESPONSE ERROR page2 None tt things)
    as (Hdispatched & _ & _ & Hresult); [run_it | run_it |].
  split; [exact Hdispatched | exact Hresult].
Defined.

(** The same call when [dispatch] throws on the response action: three
    actions are dispatched and the promise resolves with [undefined]. *)
Lemma success_as_stated_fails :
  ¬ success_as_stated (mock (throwing_on RESPONSE offline) (Normal things))
      Get "/things" REQUEST RESPONSE ERROR page2 None tt.
Proof.
  intros Hclaim. destruct (Hclaim things) as [_ Hresult]; [run_it |].
  vm_compute in Hresult. discriminate Hresult.
Qed.

(** The second scenario: the client rejects with
    [{response: {data: {message: "bad"}}}]. *)
Lemma dispatchApi_failure_witness :
  dispatched (trace (dispatchApi (mock accepting (Thrown bad)) Get "/things"
                       triple page2 None tt))
  = [createApiRequestAction REQUEST page2;
     errorAction ERROR page2 (VObj {[ "message" := VStr "bad" ]})].
Proof.
  unfold triple.
  rewrite (dispatchApi_failure (mock accepting (Thrown bad)) Get "/things"
             REQUEST RESPONSE ERROR page2 None tt bad) by run_it.
  run_it.
Defined.

(** The client rejects with [undefined]: the [catch] clause throws when it
    reads [axiosError.response], and only the request action has been
    dispatched. *)
Lemma failure_as_stated_fails :
  ¬ failure_as_stated (mock accepting (Thrown VUndefined))
      Get "/things" REQUEST RESPONSE ERROR page2 None tt.
Proof.
  intros Hclaim. destruct (Hclaim VUndefined) as [payload Hdispatched]; [run_it |].
  apply (f_equal length) in Hdispatched.
  vm_compute in Hdispatched. discriminate Hdispatched.
Qed.



Lemma dispatchApi_error_payload_witness :
  logged (trace (dispatchApi (mock accepting (Thrown bad)) Get "/things" triple
                   page2 None tt))
  = [VObj {[ "message" := VStr "bad" ]}].
Proof.
  destruct (dispatchApi_error_payload (mock accepting (Thrown bad)) Get "/things"
              REQUEST RESPONSE ERROR page2 None tt bad)
    as (payload & Hpayload & Hlogged & _); [run_it | run_it |].
  unfold triple. rewrite Hlogged. f_equal. exact Hpayload.
Defined.

(** The client rejects with [null]: nothing is logged and no error action
    is dispatched. *)
Lemma error_payload_as_stated_fails :
  ¬ error_payload_as_stated (mock accepting (Thrown VNull))
      Post "/things" REQUEST RESPONSE ERROR page2 None tt.
Proof.
  intros Hclaim. destruct (Hclaim VNull) as [Hlogged _]; [run_it |].
  vm_compute in Hlogged. discriminate Hlogged.
Qed.


(** Params [{page: 2}] and meta [{page: 3}]: the actions carry [page: 3]. *)
Lemma dispatchApi_meta_overlay_witness :
  ∃ props,
    merged_meta page2 (Some (VObj {[ "page" := VNum 3 ]})) = VObj props
    ∧ props !! "page" = Some (VNum 3).
Proof.
  destruct (dispatchApi_meta_overlay (mock accepting (Normal things)) Get "/things"
              REQUEST RESPONSE ERROR page2 (Some (VObj {[ "page" := VNum 3 ]})) tt)
    as (props & Hmeta & _ & _ & Hcaller & _).
  exists props. split; [exact Hmeta |].
  apply Hcaller. reflexivity.
Defined.

(** The HTTP call succeeds and [dispatch] throws on the response action. *)
Lemma dispatchApi_catch_covers_try_block_witness :
  dispatched (trace (dispatchApi (mock (throwing_on RESPONSE offline) (Normal things))
                       Get "/things" triple page2 None tt))
  = [createApiRequestAction REQUEST page2;
     createApiResponseAction RESPONSE page2 things;
     errorAction ERROR page2 offline].
Proof.
  destruct (dispatchApi_catch_covers_try_block
              (mock (throwing_on RESPONSE offline) (Normal things)) Get "/things"
              REQUEST RESPONSE ERROR page2 None tt offline)
    as [_ Hdispatched]; [run_it | run_it |].
  unfold triple. rewrite (Hdispatched things) by run_it.
  run_it.
Defined.

(** [dispatch] throws [null] on the response action: the [catch] clause is
    entered and throws in its turn, the last action dispatched is the
    response action. *)
Lemma catch_as_stated_fails :
  ¬ catch_as_stated (mock (throwing_on RESPONSE VNull) (Normal things))
      Get "/things" REQUEST RESPONSE ERROR page2 None tt.
Proof.
  intros Hclaim. destruct (Hclaim VNull) as [payload Hlast]; [run_it |].
  apply (f_equal (λ a : option action, a ≫= (.!! "type"))) in Hlast.
  vm_compute in Hlast. discriminate Hlast.
Qed.

(** ** Further properties of createAction and of the action creators *)

Lemma createAction_type type payload :
  createAction type payload !! "type" = Some (VStr type).
Proof.
  unfold createAction.
  destruct (arg payload); by rewrite ?lookup_insert_eq, ?lookup_singleton_eq.
Qed.

Lemma createAction_payload type payload :
  createAction type payload !! "payload"
  = match arg payload with VUndefined => None | p => Some p end.
Proof.
  unfold createAction.
  destruct (arg payload);
    by rewrite ?lookup_insert_ne, ?lookup_singleton_eq, ?lookup_singleton_ne.
Qed.

Lemma createAction_meta type payload :
  createAction type payload !! "meta" = None.
Proof.
  unfold createAction.
  destruct (arg payload);
    by rewrite ?lookup_insert_ne, ?lookup_singleton_ne.
Qed.

(** The type and the payload can be read back from the action that
    [createAction] builds: two calls build the same action only when they
    have the same type and the same payload, an omitted payload counting as
    [undefined]. *)
Theorem createAction_injective type type' payload payload' :
  createAction type payload = createAction type' payload' →
  type = type' ∧ arg payload = arg payload'.
Proof.
  intros Heq. split.
  - apply (f_equal (λ a : action, a !! "type")) in Heq.
    rewrite !createAction_type in Heq. by simplify_eq.
  - apply (f_equal (λ a : action, a !! "payload")) in Heq.
    rewrite !createAction_payload in Heq.
    by destruct (arg payload), (arg payload'); simplify_eq.
Qed.

(** [createApiErrorAction] logs the error and returns [errorAction]. *)
Lemma createApiErrorAction_run {W : Type} type meta error (w : W) :
  createApiErrorAction type meta error w
  = Run (Normal (errorAction type meta error)) w [EvLogError error].
Proof. done. Qed.

(** The three kinds of actions are apart.  An action of one of the API
    creators always has the key [meta], also when the meta is [undefined],
    and an action of [createAction] never has it; a request action never
    has the key [payload], a response or error action always has it. *)
Theorem action_kinds_apart type payload type' meta' payload' type'' meta'' :
  createAction type payload ≠ createApiRequestAction type' meta'
  ∧ createAction type payload ≠ createApiResponseAction type' meta' payload'
  ∧ createAction type payload ≠ errorAction type' meta' payload'
  ∧ createApiRequestAction type'' meta'' ≠ createApiResponseAction type' meta' payload'
  ∧ createApiRequestAction type'' meta'' ≠ errorAction type' meta' payload'.
Proof.
  split_and!; intros Heq.
  - apply (f_equal (λ a : action, a !! "meta")) in Heq.
    by rewrite createAction_meta, request_action_meta in Heq.
  - apply (f_equal (λ a : action, a !! "meta")) in Heq.
    by rewrite createAction_meta, response_action_meta in Heq.
  - apply (f_equal (λ a : action, a !! "meta")) in Heq.
    by rewrite createAction_meta, error_action_meta in Heq.
  - apply (f_equal (λ a : action, a !! "payload")) in Heq.
    revert Heq. unfold createApiRequestAction, createApiResponseAction.
    by rewrite !lookup_insert_ne, lookup_singleton_ne, lookup_singleton_eq.
  - apply (f_equal (λ a : action, a !! "payload")) in Heq.
    revert Heq. rewrite error_action_payload. unfold createApiRequestAction.
    by rewrite !lookup_insert_ne, lookup_singleton_ne.
Qed.

(** ** Further facts on values *)

Lemma field_of_nullish v k : nullish v = true → field v k = VUndefined.
Proof. intros Hv. unfold field. by rewrite get_prop_nullish. Qed.

Lemma own_enumerable_nullish v : nullish v = true → own_enumerable v = ∅.
Proof. by destruct v. Qed.

(** Merging the params into a meta that already holds them changes
    nothing. *)
Lemma merged_meta_again params meta :
  merged_meta params (Some (merged_meta params meta)) = merged_meta params meta.
Proof.
  rewrite (merged_meta_union params (Some _)), !merged_meta_union.
  cbn [arg default from_option id own_enumerable].
  by rewrite <- (assoc_L (∪)), (idemp_L (∪)).
Qed.

(** ** bindDispatch *)


(** ** Further properties of dispatchApi *)

Section MoreProperties.

Context {W : Type} (E : collaborators W).
Context (requestType : RequestType) (endpoint : string).
Context (rq rs er : string) (params : value) (meta : option value) (w : W).

#[local] Abbreviation the_run :=
  (dispatchApi E requestType endpoint (generateApiActionCreators rq rs er)
     params meta w).
#[local] Abbreviation m := (merged_meta params meta).

Ltac observe :=
  cbn [trace result awaited dispatched dispatch_outcomes dispatch_returns logged
       api_calls http_failures try_block_exception thrown_by
       omap list_omap app forallb is_normal andb negb returning head tail
       not_nullish last length].

Ltac by_paths :=
  generalize (dispatchApi_paths E requestType endpoint rq rs er params meta w);
  generalize the_run;
  intros ? [o w' Ho | v p resp' v' w' | v evs w' Hstop
            | v evs e' o w' Hstop He | v evs e' w' Hstop He];
  try (inversion Hstop; subst; clear Hstop);
  observe.

(** The request action is dispatched first, before anything else is done.
    When that dispatch throws, nothing follows: the HTTP client is not
    called, nothing is logged, and the promise is rejected with the very
    exception of [dispatch]. *)
Theorem dispatchApi_request_dispatched_first :
  (∃ o, head (trace the_run) = Some (EvDispatch (createApiRequestAction rq m) o))
  ∧ (∀ x, head (dispatch_outcomes (trace the_run)) = Some (Thrown x) →
       trace the_run = [EvDispatch (createApiRequestAction rq m) (Thrown x)]
       ∧ result the_run = Thrown x).
Proof.
  by_paths; (split; [by eexists |]); intros x Hx; by simplify_eq.
Qed.

(** When the promise of the HTTP client never settles, the promise of
    [dispatchApi] never settles either: the request action stays the only
    action dispatched, neither a response nor an error action follows, and
    nothing is logged. *)
Theorem dispatchApi_pending_request :
  awaited (trace the_run) = [Pending] →
  dispatched (trace the_run) = [createApiRequestAction rq m]
  ∧ logged (trace the_run) = []
  ∧ result the_run = Pending.
Proof. by_paths; intros Hawait; by simplify_eq. Qed.

(** The promise of [dispatchApi] is rejected in three ways only: the
    dispatch of the request action threw, and the promise carries its
    exception; or the value caught by the [catch] clause is [null] or
    [undefined], and the promise carries the TypeError of reading its
    [response]; or the dispatch of the error action threw, and the promise
    carries its exception. *)
Theorem dispatchApi_rejection_sources x :
  result the_run = Thrown x →
  trace the_run = [EvDispatch (createApiRequestAction rq m) (Thrown x)]
  ∨ (∃ e, try_block_exception (trace the_run) = Some e
          ∧ nullish e = true ∧ x = TypeError ∧ logged (trace the_run) = [])
  ∨ (∃ e before,
       try_block_exception (trace the_run) = Some e
       ∧ trace the_run
         = before ++ [EvLogError (error_payload e);
                      EvDispatch (errorAction er m (error_payload e)) (Thrown x)]).
Proof.
  by_paths; intros Hresult; simplify_eq;
    try (destruct o; cbn [returning] in Hresult; simplify_eq).
  - by left.
  - right; right. by eexists _, [_; _].
  - right; right. by eexists _, [_; _; _].
  - right; right. by eexists _, [_; _; _; _].
  - right; left. by eexists.
  - right; left. by eexists.
  - right; left. by eexists.
Qed.

(** [logError] is called at most once in a call of [dispatchApi], and only
    for an exception that left the [try] block: what is logged is the
    payload extracted from that exception, and nothing is logged when the
    block completes or when the exception is [null] or [undefined]. *)
Theorem dispatchApi_logged :
  logged (trace the_run)
  = match try_block_exception (trace the_run) with
    | Some e => if nullish e then [] else [error_payload e]
    | None => []
    end.
Proof.
  by_paths; try done; try (by destruct o); by rewrite He.
Qed.

(** Between one and three actions are dispatched in a call: the request
    action, then at most one response action, then at most one error
    action.  Three are dispatched only when the HTTP call was fulfilled and
    the dispatch of the response action threw. *)
Theorem dispatchApi_dispatch_count :
  ∃ rest,
    dispatched (trace the_run) = createApiRequestAction rq m :: rest
    ∧ length rest ≤ 2
    ∧ (length rest = 2 →
       ∃ resp e,
         awaited (trace the_run) = [Normal resp]
         ∧ try_block_exception (trace the_run) = Some e
         ∧ rest = [createApiResponseAction rs m resp;
                   errorAction er m (error_payload e)]).
Proof.
  by_paths; eexists; (split; [reflexivity |]); cbn [length];
    (split; [lia |]); intros Hlength; simplify_eq.
  by eexists _, _.
Qed.

(** An exception of the client's method itself, thrown before there is a
    promise to await, is handled like a rejection: when it is neither
    [null] nor [undefined], its payload is logged and the error action is
    dispatched after the request action, and nothing else is. *)
Theorem dispatchApi_client_throws e :
  http_failures (trace the_run) = [e] →
  awaited (trace the_run) = [] →
  nullish e = false →
  dispatched (trace the_run)
    = [createApiRequestAction rq m; errorAction er m (error_payload e)]
  ∧ logged (trace the_run) = [error_payload e].
Proof.
  by_paths; intros Hfailure Hawait Hnull; simplify_eq; first [done | congruence].
Qed.

(** What the fulfilled promise of [dispatchApi] holds.  Either it is the
    response that the HTTP client's promise was fulfilled with, and then
    the request and response actions were dispatched and nothing was
    logged; or it is [undefined], an exception left the [try] block, its
    payload was logged and the error action was the last action
    dispatched. *)
Theorem dispatchApi_fulfilled_value held :
  result the_run = Normal held →
  (awaited (trace the_run) = [Normal held]
   ∧ logged (trace the_run) = []
   ∧ dispatched (trace the_run)
     = [createApiRequestAction rq m; createApiResponseAction rs m held])
  ∨ (held = VUndefined
     ∧ ∃ e, try_block_exception (trace the_run) = Some e
            ∧ nullish e = false
            ∧ logged (trace the_run) = [error_payload e]
            ∧ last (dispatched (trace the_run))
              = Some (errorAction er m (error_payload e))).
Proof.
  by_paths; intros Hresult; simplify_eq;
    try (destruct o; cbn [returning] in Hresult; simplify_eq);
    first [by left | right; split; [done |]; by eexists].
Qed.

(** When the caught error carries a response that has no [data], the
    payload of the error action is [undefined]: the key [payload] is there
    and holds [undefined], [undefined] is what is logged, and the caught
    error itself is not forwarded. *)
Theorem dispatchApi_error_without_body e :
  awaited (trace the_run) = [Thrown e] →
  truthy (field e "response") = true →
  field (field e "response") "data" = VUndefined →
  dispatched (trace the_run)
    = [createApiRequestAction rq m; errorAction er m VUndefined]
  ∧ errorAction er m VUndefined !! "payload" = Some VUndefined
  ∧ logged (trace the_run) = [VUndefined].
Proof.
  intros Hawait Hresponse Hdata.
  assert (error_payload e = VUndefined) as Hpayload
    by by rewrite error_payload_response.
  assert (nullish e = false) as Hnull.
  { destruct (nullish e) eqn:He; [| done].
    by rewrite (field_of_nullish e) in Hresponse. }
  revert Hawait. rewrite <- Hpayload.
  by_paths; intros Hawait; simplify_eq; try congruence.
  split_and!; [done | apply error_action_payload | done].
Qed.

(** Every action that a call dispatches carries the merged meta. *)
Lemma dispatched_meta :
  Forall (λ a : action, a !! "meta" = Some m) (dispatched (trace the_run)).
Proof.
  by_paths;
    repeat (apply Forall_cons; split);
    auto using request_action_meta, response_action_meta, error_action_meta.
Qed.

(** What the meta of the actions is when an argument is missing.  When
    the caller gives no meta, or [undefined] or [null], the actions carry
    a copy of the params; when the params are [undefined] or [null], they
    carry a copy of the caller's meta; when both are missing they carry
    the empty object, never [undefined]. *)
Theorem dispatchApi_meta_defaults :
  (nullish (arg meta) = true →
   Forall (λ a : action, a !! "meta" = Some (VObj (own_enumerable params)))
          (dispatched (trace the_run)))
  ∧ (nullish params = true →
     Forall (λ a : action, a !! "meta" = Some (VObj (own_enumerable (arg meta))))
            (dispatched (trace the_run)))
  ∧ (nullish (arg meta) = true → nullish params = true →
     Forall (λ a : action, a !! "meta" = Some (VObj ∅))
            (dispatched (trace the_run))).
Proof.
  pose proof dispatched_meta as Hmeta. rewrite merged_meta_union in Hmeta.
  split_and!.
  - intros Hnull. rewrite (own_enumerable_nullish (arg meta)) in Hmeta by done.
    by rewrite (left_id_L ∅ (∪)) in Hmeta.
  - intros Hnull. rewrite (own_enumerable_nullish params) in Hmeta by done.
    by rewrite (right_id_L ∅ (∪)) in Hmeta.
  - intros Hnull Hnull'.
    rewrite (own_enumerable_nullish (arg meta)),
      (own_enumerable_nullish params) in Hmeta by done.
    by rewrite (left_id_L ∅ (∪)) in Hmeta.
Qed.

(** The merged meta has the keys of the params and the keys of the
    caller's meta, and no other key: the call adds nothing of its own
    (neither the endpoint nor the method) and drops nothing. *)
Theorem dispatchApi_meta_keys :
  ∃ props,
    Forall (λ a : action, a !! "meta" = Some (VObj props))
           (dispatched (trace the_run))
    ∧ dom props = dom (own_enumerable (arg meta)) ∪ dom (own_enumerable params).
Proof.
  exists (own_enumerable (arg meta) ∪ own_enumerable params). split.
  - rewrite <- merged_meta_union. apply dispatched_meta.
  - apply dom_union_L.
Qed.

End MoreProperties.

(** The meta of a dispatched action can be given back as the meta of
    another call with the same params: the actions of that call carry the
    same meta again. *)
Theorem dispatchApi_meta_stable {W : Type} (E : collaborators W)
    (requestType : RequestType) (endpoint : string) (rq rs er : string)
    (params : value) (meta : option value) (w : W) :
  Forall (λ a : action, a !! "meta" = Some (merged_meta params meta))
         (dispatched
            (trace (dispatchApi E requestType endpoint
                      (generateApiActionCreators rq rs er) params
                      (Some (merged_meta params meta)) w))).
Proof.
  pose proof (dispatched_meta E requestType endpoint rq rs er params
                (Some (merged_meta params meta)) w) as Hmeta.
  rewrite merged_meta_again in Hmeta. exact Hmeta.
Qed.

(** ** The further properties on examples *)

Lemma createAction_injective_witness :
  "A"%string = "A"%string ∧ arg (Some VUndefined) = arg None.
Proof. apply (createAction_injective "A" "A" (Some VUndefined) None). reflexivity. Defined.

(** [dispatch] throws on the request action. *)
Lemma dispatchApi_request_dispatched_first_witness :
  trace (dispatchApi (mock (throwing_on REQUEST offline) (Normal things)) Get
           "/things" triple page2 None tt)
    = [EvDispatch (createApiRequestAction REQUEST (merged_meta page2 None))
         (Thrown offline)]
  ∧ result (dispatchApi (mock (throwing_on REQUEST offline) (Normal things)) Get
              "/things" triple page2 None tt)
    = Thrown offline.
Proof.
  destruct (dispatchApi_request_dispatched_first
              (mock (throwing_on REQUEST offline) (Normal things)) Get "/things"
              REQUEST RESPONSE ERROR page2 None tt) as [_ Hthrows].
  apply Hthrows. run_it.
Defined.

(** The promise of the client stays pending. *)
Lemma dispatchApi_pending_request_witness :
  dispatched (trace (dispatchApi (mock accepting Pending) Get "/things" triple
                       page2 None tt))
    = [createApiRequestAction REQUEST (merged_meta page2 None)]
  ∧ logged (trace (dispatchApi (mock accepting Pending) Get "/things" triple
                     page2 None tt)) = []
  ∧ result (dispatchApi (mock accepting Pending) Get "/things" triple
              page2 None tt) = Pending.
Proof.
  apply (dispatchApi_pending_request (mock accepting Pending) Get "/things"
           REQUEST RESPONSE ERROR page2 None tt).
  run_it.
Defined.

(** The client rejects with [null]: the promise is rejected with the
    TypeError, which is the second of the three ways. *)
Lemma dispatchApi_rejection_sources_witness :
  try_block_exception
    (trace (dispatchApi (mock accepting (Thrown VNull)) Get "/things" triple
              page2 None tt))
  = Some VNull.
Proof.
  destruct (dispatchApi_rejection_sources (mock accepting (Thrown VNull)) Get
              "/things" REQUEST RESPONSE ERROR page2 None tt TypeError)
    as [Hfirst | [(e & He & _) | (e & before & He & _)]]; [run_it | | |].
  - apply (f_equal length) in Hfirst. vm_compute in Hfirst. discriminate Hfirst.
  - run_it.
  - run_it.
Defined.

(** The HTTP call is fulfilled and [dispatch] throws on the response
    action: three actions. *)
Lemma dispatchApi_dispatch_count_witness :
  ∃ resp e,
    awaited (trace (dispatchApi (mock (throwing_on RESPONSE offline) (Normal things))
                      Get "/things" triple page2 None tt))
      = [Normal resp]
    ∧ try_block_exception
        (trace (dispatchApi (mock (throwing_on RESPONSE offline) (Normal things))
                  Get "/things" triple page2 None tt))
      = Some e.
Proof.
  destruct (dispatchApi_dispatch_count
              (mock (throwing_on RESPONSE offline) (Normal things)) Get "/things"
              REQUEST RESPONSE ERROR page2 None tt)
    as (rest & Hdispatched & _ & Hthree).
  destruct Hthree as (resp & e & Hawait & Hthrown & _).
  - apply (f_equal length) in Hdispatched. vm_compute in Hdispatched.
    by injection Hdispatched.
  - by exists resp, e.
Defined.

(** The method of the client throws. *)
Lemma dispatchApi_client_throws_witness :
  dispatched (trace (dispatchApi (broken_client accepting offline) Put "/things"
                       triple page2 None tt))
    = [createApiRequestAction REQUEST (merged_meta page2 None);
       errorAction ERROR (merged_meta page2 None) (error_payload offline)]
  ∧ logged (trace (dispatchApi (broken_client accepting offline) Put "/things"
                     triple page2 None tt))
    = [error_payload offline].
Proof.
  apply (dispatchApi_client_throws (broken_client accepting offline) Put "/things"
           REQUEST RESPONSE ERROR page2 None tt offline); run_it.
Defined.

(** The client fulfils with [things]. *)
Lemma dispatchApi_fulfilled_value_witness :
  logged (trace (dispatchApi (mock accepting (Normal things)) Get "/things" triple
                   page2 None tt))
  = [].
Proof.
  destruct (dispatchApi_fulfilled_value (mock accepting (Normal things)) Get
              "/things" REQUEST RESPONSE ERROR page2 None tt things)
    as [(_ & Hlogged & _) | [Hundefined _]]; [run_it | exact Hlogged |].
  vm_compute in Hundefined. discriminate Hundefined.
Defined.

(** The client rejects with [{response: {status: 500}}]. *)
Lemma dispatchApi_error_without_body_witness :
  dispatched (trace (dispatchApi (mock accepting (Thrown no_body)) Post "/things"
                       triple page2 None tt))
    = [createApiRequestAction REQUEST (merged_meta page2 None);
       errorAction ERROR (merged_meta page2 None) VUndefined]
  ∧ errorAction ERROR (merged_meta page2 None) VUndefined !! "payload"
    = Some VUndefined
  ∧ logged (trace (dispatchApi (mock accepting (Thrown no_body)) Post "/things"
                     triple page2 None tt))
    = [VUndefined].
Proof.
  apply (dispatchApi_error_without_body (mock accepting (Thrown no_body)) Post
           "/things" REQUEST RESPONSE ERROR page2 None tt no_body); run_it.
Defined.

(** No meta is given: the actions carry the params [{page: 2}]. *)
Lemma dispatchApi_meta_defaults_witness :
  Forall (λ a : action, a !! "meta" = Some (VObj (own_enumerable page2)))
         (dispatched (trace (dispatchApi (mock accepting (Normal things)) Get
                               "/things" triple page2 None tt))).
Proof.
  destruct (dispatchApi_meta_defaults (mock accepting (Normal things)) Get
              "/things" REQUEST RESPONSE ERROR page2 None tt) as [Hparams _].
  apply Hparams. reflexivity.
Defined.

End ReduxActions.
